(** * GridTrading: the grid-parameter calculator of [main.py]

    A shallow embedding of [calculate_grid_parameters] and
    [optimize_grid_for_period], and the properties of the specification
    checked against it.

    Numbers.  Python and numpy floats are rationals ([Q]).  The values that
    a division by zero produces are kept: the statistics are numpy [float64]
    scalars, for which [x / 0] is [inf], [-inf] or [nan] (with a warning, not
    an exception), so such results have type [np_float].  Python [int]s
    (periods, grid counts, the trade volume) are [Z].

    Rounding.  The first embedding is the exact one: every operation returns
    its exact rational result.  It decides what does not depend on the last
    bits of a float: which steps run, which errors are raised, the shape of
    the results.  Where the last bits decide (a comparison of profits that
    tie, a deviation too small to move the mean), the same lines are given a
    second time with every operation followed by a rounding function
    ([rounded_optimize_grid_for_period], [rounded_range_for]); [binary64] is
    the rounding of a [float64].  Overflow to an infinity is not modelled,
    and the integers are taken of a size that a float holds. *)

From Stdlib Require Import ZArith QArith Qminmax Qround Qabs Qpower.
From Stdlib Require Import List String Bool Lia Lqa.
Import ListNotations.
Open Scope Q_scope.

(** ** numpy [float64] scalars *)

Module NpFloat.

Inductive np_float : Type :=
| Finite (q : Q)
| Inf (negative : bool)
| NaN.

Definition Qltb (x y : Q) : bool := negb (Qle_bool y x).
Definition Qeqb (x y : Q) : bool := Qeq_bool x y.

Definition is_nan (x : np_float) : bool :=
  match x with NaN => true | _ => false end.

Definition is_finite (x : np_float) : bool :=
  match x with Finite _ => true | _ => false end.

Definition neg (x : np_float) : np_float :=
  match x with
  | Finite q => Finite (- q)
  | Inf s => Inf (negb s)
  | NaN => NaN
  end.

Definition add (x y : np_float) : np_float :=
  match x, y with
  | Finite a, Finite b => Finite (a + b)
  | Finite _, Inf s | Inf s, Finite _ => Inf s
  | Inf s, Inf t => if eqb s t then Inf s else NaN
  | _, _ => NaN
  end.

Definition sub (x y : np_float) : np_float := add x (neg y).

Definition mul (x y : np_float) : np_float :=
  match x, y with
  | Finite a, Finite b => Finite (a * b)
  | Finite a, Inf s | Inf s, Finite a =>
      if Qeqb a 0 then NaN else Inf (xorb s (Qltb a 0))
  | Inf s, Inf t => Inf (xorb s t)
  | _, _ => NaN
  end.

(** [x / y]: a zero divisor gives [nan] for [0 / 0] and an infinity of the
    sign of [x] otherwise (the divisors that can be zero in [main.py] are
    non-negative, so the sign of zero is not modelled). *)
Definition div (x y : np_float) : np_float :=
  match x, y with
  | Finite a, Finite b =>
      if Qeqb b 0
      then (if Qeqb a 0 then NaN else Inf (Qltb a 0))
      else Finite (a / b)
  | Finite _, Inf _ => Finite 0
  | Inf s, Finite b => Inf (xorb s (Qltb b 0))
  | Inf _, Inf _ => NaN
  | _, _ => NaN
  end.

(** [x > y], false as soon as one side is [nan]. *)
Definition gtb (x y : np_float) : bool :=
  match x, y with
  | Finite a, Finite b => Qltb b a
  | Inf s, Finite _ => negb s
  | Finite _, Inf s => s
  | Inf s, Inf t => negb s && t
  | _, _ => false
  end.

(** The square root on rationals, rounded down to a multiple of [2^-64]. *)
Definition sqrt_bits : Z := 64.

Definition sqrtQ (q : Q) : Q :=
  Z.sqrt (Qfloor (q * inject_Z (4 ^ sqrt_bits)))
    # Z.to_pos (2 ^ sqrt_bits).

Definition sqrt (x : np_float) : np_float :=
  match x with
  | Finite q => if Qltb q 0 then NaN else Finite (sqrtQ q)
  | Inf false => Inf false
  | Inf true => NaN
  | NaN => NaN
  end.

End NpFloat.

Import NpFloat.

(** ** Python built-ins *)

(** [range(lo, hi)]: the integers [lo], ..., [hi - 1]. *)
Definition range (lo hi : Z) : list Z :=
  map (fun i => (lo + Z.of_nat i)%Z) (seq 0 (Z.to_nat (hi - lo))).

(** [min(a, b)]: the first argument, unless the second is strictly less. *)
Definition py_min (a b : Q) : Q := if Qltb b a then b else a.

(** A [dict] keyed by [int]: entries in insertion order; assigning to a key
    that is present replaces its value where it stands. *)
Definition dict (V : Type) : Type := list (Z * V).

Fixpoint dict_set {V : Type} (d : dict V) (k : Z) (v : V) : dict V :=
  match d with
  | [] => [(k, v)]
  | (k', v') :: rest =>
      if (k' =? k)%Z then (k', v) :: rest else (k', v') :: dict_set rest k v
  end.

Definition dict_keys {V : Type} (d : dict V) : list Z := map fst d.

Fixpoint dict_get {V : Type} (d : dict V) (k : Z) : option V :=
  match d with
  | [] => None
  | (k', v) :: rest => if (k' =? k)%Z then Some v else dict_get rest k
  end.

(** ** [optimize_grid_for_period] *)

(** The dict the optimizer returns. *)
Record grid_strategy : Type := {
  grid_count : Z;
  estimated_profit : Q;
  grid_size : np_float
}.

(** Line 58. *)
Definition grid_range (period : Z) : list Z :=
  if (period <=? 30)%Z then range 5 16
  else if (period <=? 90)%Z then range 10 26
  else range 20 51.

(** Lines 63-68: the body of the loop, one definition per assignment. *)
Definition candidate_grid_size (lowest_price highest_price : Q)
    (grid_count : Z) : Q :=
  (highest_price - lowest_price) / inject_Z grid_count.

Definition transaction_cost (lowest_price grid_size commission_rate fixed_fee : Q)
    (trade_volume : Z) : Q :=
  (lowest_price + grid_size / 2) * commission_rate * inject_Z trade_volume
  + fixed_fee * inject_Z trade_volume.

Definition avg_profit_per_trade (grid_size : Q) (trade_volume : Z)
    (transaction_cost : Q) : Q :=
  grid_size * inject_Z trade_volume - transaction_cost.

(** Line 67.  [period / 7] divides two [int]s into a float: Python raises
    [OverflowError] there when the quotient is beyond the range of a float,
    which takes a horizon of more than 300 digits; the embedding takes the
    horizon below that. *)
Definition estimated_trades (grid_count period : Z) : Q :=
  py_min (inject_Z (grid_count * 2)) (inject_Z period / 7 * 2).

Definition total_profit (lowest_price highest_price commission_rate fixed_fee : Q)
    (period trade_volume grid_count : Z) : Q :=
  let grid_size := candidate_grid_size lowest_price highest_price grid_count in
  let transaction_cost :=
    transaction_cost lowest_price grid_size commission_rate fixed_fee
      trade_volume in
  let avg_profit_per_trade :=
    avg_profit_per_trade grid_size trade_volume transaction_cost in
  let estimated_trades := estimated_trades grid_count period in
  avg_profit_per_trade * estimated_trades.

(** Lines 62-72: one iteration, on the pair
    [(max_profit, optimal_grid_count)]. *)
Definition loop_body (lowest_price highest_price commission_rate fixed_fee : Q)
    (period trade_volume : Z) (st : Q * Z) (grid_count : Z) : Q * Z :=
  let '(max_profit, optimal_grid_count) := st in
  let total_profit :=
    total_profit lowest_price highest_price commission_rate fixed_fee
      period trade_volume grid_count in
  if Qltb max_profit total_profit
  then (total_profit, grid_count)
  else (max_profit, optimal_grid_count).

(** Lines 57-78.  [avg_amplitude] is a parameter the body never reads.  The
    range bounds are numpy scalars, so the last division follows numpy when
    [optimal_grid_count] is still [0]. *)
Definition optimize_grid_for_period
    (lowest_price highest_price avg_amplitude commission_rate fixed_fee : Q)
    (period trade_volume : Z) : grid_strategy :=
  let '(max_profit, optimal_grid_count) :=
    fold_left
      (loop_body lowest_price highest_price commission_rate fixed_fee
         period trade_volume)
      (grid_range period) (0, 0%Z) in
  {| grid_count := optimal_grid_count;
     estimated_profit := max_profit;
     grid_size :=
       div (Finite (highest_price - lowest_price))
           (Finite (inject_Z optimal_grid_count)) |}.

(** ** pandas and numpy statistics *)

(** A row of the history frame; [len(hist_data)] is the number of rows. *)
Record bar : Type := { Open : Q; High : Q; Low : Q; Close : Q }.

Definition DataFrame : Type := list bar.

Definition len {A : Type} (l : list A) : Z := Z.of_nat (List.length l).

Definition Qsum (l : list Q) : Q := fold_right Qplus 0 l.

(** [np.mean] and [np.std] (population, divisor [N]) of a column of finite
    prices.  They are reached only behind the guard [len(hist_data) >= 20],
    so the column is never empty.  Both are exact up to the square root: a
    column that repeats one price has deviation 0 here, where the floating
    sums of numpy can leave a residue of a few units in the last place. *)
Definition np_mean (l : list Q) : Q := Qsum l / inject_Z (len l).

Definition np_std (l : list Q) : Q :=
  let m := np_mean l in
  sqrtQ (np_mean (map (fun x => (x - m) * (x - m)) l)).

(** [Series.pct_change()]: [self / self.shift(1) - 1], [nan] in the first
    place. *)
Fixpoint pct_change_from (prev : Q) (l : list Q) : list np_float :=
  match l with
  | [] => []
  | x :: rest =>
      sub (div (Finite x) (Finite prev)) (Finite 1) :: pct_change_from x rest
  end.

Definition pct_change (l : list Q) : list np_float :=
  match l with
  | [] => []
  | x :: rest => NaN :: pct_change_from x rest
  end.

Definition dropna (l : list np_float) : list np_float :=
  filter (fun x => negb (is_nan x)) l.

Definition np_sum (l : list np_float) : np_float :=
  fold_left add l (Finite 0).

(** [Series.mean()]: the sum over the count ([nan] for an empty series). *)
Definition Series_mean (l : list np_float) : np_float :=
  div (np_sum l) (Finite (inject_Z (len l))).

(** [Series.std()]: the sample standard deviation ([ddof = 1]), [nan] when
    the count does not exceed [ddof].  Exact up to the square root, like
    [np_std]. *)
Definition Series_std (l : list np_float) : np_float :=
  let count := len l in
  if (count <=? 1)%Z then NaN
  else
    let avg := Series_mean l in
    let sqr := map (fun x => mul (sub avg x) (sub avg x)) l in
    sqrt (div (np_sum sqr) (Finite (inject_Z (count - 1)))).

(** The 5% quantile of the standard normal distribution: the double
    [-0x1.a515209676abep+0], which prints as [-1.6448536269514729]. *)
Definition ndtri_05 : Q := - (3703881090708831 # 2251799813685248).

(** [stats.norm.ppf(0.05, loc, scale)]: [nan] unless [scale > 0]. *)
Definition norm_ppf_05 (loc scale : np_float) : np_float :=
  if gtb scale (Finite 0) then add (mul (Finite ndtri_05) scale) loc
  else NaN.

(** ** Exceptions and the trace of the steps performed *)

Inductive exn : Type :=
| ValueError (msg : string)
| KeyError (key : string).

(** What has run so far: the statistics of lines 23-35, the range of lines
    41-42, one call of the optimizer of line 46. *)
Inductive event : Type :=
| Summarized
| RangeSelected
| Optimized (period : Z).

Definition M (A : Type) : Type := list event -> (exn + A) * list event.

Definition ret {A : Type} (a : A) : M A := fun tr => (inr a, tr).

Definition raise {A : Type} (e : exn) : M A := fun tr => (inl e, tr).

Definition bind {A B : Type} (m : M A) (k : A -> M B) : M B :=
  fun tr =>
    match m tr with
    | (inl e, tr') => (inl e, tr')
    | (inr a, tr') => k a tr'
    end.

Definition tick (ev : event) : M unit := fun tr => (inr tt, tr ++ [ev]).

Definition run {A : Type} (m : M A) : (exn + A) * list event := m [].

Notation "x <- m ;; k" := (bind m (fun x => k))
  (at level 61, m at next level, right associativity).
Notation "m ;; k" := (bind m (fun _ => k))
  (at level 61, right associativity).

(** ** [calculate_grid_parameters] *)

(** Line 38. *)
Definition risk_multipliers : list (string * Q) :=
  [("low"%string, 3 # 2); ("medium"%string, 2); ("high"%string, 5 # 2)].

(** [d[key]] on a dict keyed by [str]: [KeyError] when the key is absent. *)
Fixpoint getitem (d : list (string * Q)) (key : string) : M Q :=
  match d with
  | [] => raise (KeyError key)
  | (k, v) :: rest => if String.eqb k key then ret v else getitem rest key
  end.

(** The dict the calculator returns. *)
Record grid_parameters : Type := {
  lowest_price : Q;
  highest_price : Q;
  current_price : Q;
  sharpe_ratio : np_float;
  var_95 : np_float;
  period_strategies : dict grid_strategy
}.

(** Lines 44-46. *)
Fixpoint for_each_period
    (lowest_price highest_price avg_amplitude commission_rate fixed_fee : Q)
    (trade_volume : Z) (investment_periods : list Z)
    (period_strategies : dict grid_strategy) : M (dict grid_strategy) :=
  match investment_periods with
  | [] => ret period_strategies
  | period :: rest =>
      tick (Optimized period) ;;
      for_each_period lowest_price highest_price avg_amplitude
        commission_rate fixed_fee trade_volume rest
        (dict_set period_strategies period
           (optimize_grid_for_period lowest_price highest_price avg_amplitude
              commission_rate fixed_fee period trade_volume))
  end.

(** Lines 19-55.  The defaults of the signature ([risk_level = 'medium'],
    [commission_rate = 0.001], [fixed_fee = 1], [trade_volume = 100]) are
    left to the caller. *)
Definition calculate_grid_parameters (hist_data : DataFrame)
    (investment_periods : list Z) (risk_level : string)
    (commission_rate fixed_fee : Q) (trade_volume : Z) : M grid_parameters :=
  if (len hist_data <? 20)%Z
  then raise (ValueError "Insufficient historical data to calculate parameters")
  else
    let close_prices := map Close hist_data in
    let returns := dropna (pct_change close_prices) in
    let mean_price := np_mean close_prices in
    let std_price := np_std close_prices in
    let avg_amplitude := np_mean (map (fun r => High r - Low r) hist_data) in
    let risk_free_rate := 2 # 100 in
    let sharpe_ratio :=
      div (sub (mul (Series_mean returns) (Finite 252)) (Finite risk_free_rate))
          (mul (Series_std returns) (sqrt (Finite 252))) in
    let var_95 := norm_ppf_05 (Series_mean returns) (Series_std returns) in
    tick Summarized ;;
    multiplier <- getitem risk_multipliers risk_level ;;
    let lowest_price := mean_price - multiplier * std_price in
    let highest_price := mean_price + multiplier * std_price in
    tick RangeSelected ;;
    period_strategies <-
      for_each_period lowest_price highest_price avg_amplitude
        commission_rate fixed_fee trade_volume investment_periods [] ;;
    ret {| lowest_price := lowest_price;
           highest_price := highest_price;
           current_price := last close_prices 0;
           sharpe_ratio := sharpe_ratio;
           var_95 := var_95;
           period_strategies := period_strategies |}.

(** ** [fetch_stock_data] *)

(** The market-data library is not part of the repository: what
    [yf.Ticker(ticker).history(start, end)] does for a ticker and a number
    of days back from now is a parameter, either the frame it returns or the
    text [str(e)] of the exception it raises. *)
Definition history_source : Type := string -> Z -> string + DataFrame.

(** Lines 7-17.  [data.empty]: the frame has no row.  The [ValueError] of
    line 14 is raised inside the [try], so line 17 catches it and wraps its
    text like that of any other exception.  The default [days = 252] is left
    to the caller. *)
Definition fetch_stock_data (history : history_source) (ticker : string)
    (days : Z) : exn + DataFrame :=
  let wrap (msg : string) : exn :=
    ValueError ("Error fetching stock data: " ++ msg)%string in
  match history ticker days with
  | inl msg => inl (wrap msg)
  | inr data =>
      match data with
      | [] =>
          inl (wrap ("Unable to fetch data for " ++ ticker
                     ++ ". Please check if the ticker is correct.")%string)
      | _ :: _ => inr data
      end
  end.

(** ** The same lines in rounded arithmetic *)

(** The integers that a float holds exactly. *)
Definition float_exact (z : Z) : Prop := (Z.abs z <= 2 ^ 53)%Z.

(** For [q > 0], the exponent [e] with [2^e <= q < 2^(e+1)]. *)
Definition floor_log2 (q : Q) : Z :=
  let e0 := (Z.log2 (Qnum q) - Z.log2 (Zpos (Qden q)))%Z in
  if Qle_bool (2 ^ e0) q then e0 else (e0 - 1)%Z.

(** The nearest integer, a tie going to the even one. *)
Definition round_half_even (q : Q) : Z :=
  let f := Qfloor q in
  match Qcompare (q - inject_Z f) (1 # 2) with
  | Lt => f
  | Gt => (f + 1)%Z
  | Eq => if Z.even f then f else (f + 1)%Z
  end.

(** The rounding of a [float64]: to the nearest number with 53 significant
    bits, ties to even, with gradual underflow below [2^-1022]. *)
Definition binary64 (q : Q) : Q :=
  if Qeq_bool q 0 then 0
  else
    let e := floor_log2 (Qabs q) in
    let ulp := 2 ^ (Z.max e (-1022) - 52) in
    Qred (inject_Z (round_half_even (q / ulp)) * ulp).

Section Rounded.

(** What the arithmetic does to an exact result: [binary64] for the floats
    of the code, the identity for the exact embedding above. *)
Variable rnd : Q -> Q.

(** Line 63: a float minus a float, over an [int]. *)
Definition rounded_candidate_grid_size (lowest_price highest_price : Q)
    (grid_count : Z) : Q :=
  rnd (rnd (highest_price - lowest_price) / rnd (inject_Z grid_count)).

(** Line 65, in the order Python evaluates it. *)
Definition rounded_transaction_cost
    (lowest_price grid_size commission_rate fixed_fee : Q)
    (trade_volume : Z) : Q :=
  rnd (rnd (rnd (rnd (lowest_price + rnd (grid_size / 2)) * commission_rate)
            * rnd (inject_Z trade_volume))
       + rnd (fixed_fee * rnd (inject_Z trade_volume))).

(** Line 66. *)
Definition rounded_avg_profit_per_trade (grid_size : Q) (trade_volume : Z)
    (transaction_cost : Q) : Q :=
  rnd (rnd (grid_size * rnd (inject_Z trade_volume)) - transaction_cost).

(** Line 67: [grid_count * 2] is an exact [int], [period / 7] the correctly
    rounded quotient of two [int]s; [min] compares the [int] with the float
    exactly, and the [int] becomes a float when line 68 multiplies by it. *)
Definition rounded_estimated_trades (grid_count period : Z) : Q :=
  let a := inject_Z (grid_count * 2) in
  let b := rnd (rnd (inject_Z period / 7) * 2) in
  if Qltb b a then b else rnd a.

(** Lines 63-68. *)
Definition rounded_total_profit
    (lowest_price highest_price commission_rate fixed_fee : Q)
    (period trade_volume grid_count : Z) : Q :=
  let grid_size :=
    rounded_candidate_grid_size lowest_price highest_price grid_count in
  let transaction_cost :=
    rounded_transaction_cost lowest_price grid_size commission_rate fixed_fee
      trade_volume in
  let avg_profit_per_trade :=
    rounded_avg_profit_per_trade grid_size trade_volume transaction_cost in
  let estimated_trades := rounded_estimated_trades grid_count period in
  rnd (avg_profit_per_trade * estimated_trades).

(** Lines 62-72: the comparison of line 70 is exact, on the rounded
    profits. *)
Definition rounded_loop_body
    (lowest_price highest_price commission_rate fixed_fee : Q)
    (period trade_volume : Z) (st : Q * Z) (grid_count : Z) : Q * Z :=
  let '(max_profit, optimal_grid_count) := st in
  let total_profit :=
    rounded_total_profit lowest_price highest_price commission_rate fixed_fee
      period trade_volume grid_count in
  if Qltb max_profit total_profit
  then (total_profit, grid_count)
  else (max_profit, optimal_grid_count).

(** Lines 57-78. *)
Definition rounded_optimize_grid_for_period
    (lowest_price highest_price avg_amplitude commission_rate fixed_fee : Q)
    (period trade_volume : Z) : grid_strategy :=
  let '(max_profit, optimal_grid_count) :=
    fold_left
      (rounded_loop_body lowest_price highest_price commission_rate fixed_fee
         period trade_volume)
      (grid_range period) (0, 0%Z) in
  {| grid_count := optimal_grid_count;
     estimated_profit := max_profit;
     grid_size :=
       if (optimal_grid_count =? 0)%Z
       then div (Finite (rnd (highest_price - lowest_price))) (Finite 0)
       else Finite (rounded_candidate_grid_size lowest_price highest_price
                      optimal_grid_count) |}.


End Rounded.

(** ** The vocabulary of the specification *)

(** RiskProfile: the three enumerated levels, the multiplier bound to each
    and the key each has in [risk_multipliers]. *)
Inductive RiskProfile : Type := Low_risk | Medium_risk | High_risk.

Definition multiplier_of (p : RiskProfile) : Q :=
  match p with
  | Low_risk => 3 # 2
  | Medium_risk => 2
  | High_risk => 5 # 2
  end.

Definition risk_key (p : RiskProfile) : string :=
  match p with
  | Low_risk => "low"
  | Medium_risk => "medium"
  | High_risk => "high"
  end.

(** The profit model in the words of the specification. *)
Definition spec_total_profit (lowest highest commissionRate fixedFee : Q)
    (tradeVolume horizon g : Z) : Q :=
  let gridSize := (highest - lowest) / inject_Z g in
  let transactionCost :=
    (lowest + gridSize / 2) * commissionRate * inject_Z tradeVolume
    + fixedFee * inject_Z tradeVolume in
  let avgProfitPerTrade := gridSize * inject_Z tradeVolume - transactionCost in
  let estimatedTrades := Qmin (2 * inject_Z g) (2 * inject_Z horizon / 7) in
  avgProfitPerTrade * estimatedTrades.

(** The horizons of a request in the order of their first occurrence, the
    ones in [seen] left out. *)
Fixpoint first_occurrences_from (seen horizons : list Z) : list Z :=
  match horizons with
  | [] => []
  | h :: rest =>
      if existsb (Z.eqb h) seen then first_occurrences_from seen rest
      else h :: first_occurrences_from (seen ++ [h]) rest
  end.

Definition first_occurrences (horizons : list Z) : list Z :=
  first_occurrences_from [] horizons.

(** The daily returns as rationals, for closing prices none of which is
    zero: each close over the one before, minus 1. *)
Fixpoint finite_returns_from (prev : Q) (l : list Q) : list Q :=
  match l with
  | [] => []
  | x :: rest => (x / prev - 1) :: finite_returns_from x rest
  end.

Definition finite_returns (l : list Q) : list Q :=
  match l with
  | [] => []
  | x :: rest => finite_returns_from x rest
  end.

(** What a run of the calculator returned, and what it had done by then. *)
Definition outcome {A : Type} (m : M A) : exn + A := fst (run m).
Definition trace {A : Type} (m : M A) : list event := snd (run m).

(** ** Sample histories *)

(** [2 * n] days closing at [a], [b], [a], [b], ... *)
Fixpoint alternating (a b : Q) (n : nat) : DataFrame :=
  match n with
  | O => []
  | S k =>
      {| Open := b; High := Qmax a b; Low := Qmin a b; Close := a |}
      :: {| Open := a; High := Qmax a b; Low := Qmin a b; Close := b |}
      :: alternating a b k
  end.

(** Twenty days closing at the same price. *)
Definition flat_history : DataFrame := alternating 100 100 10.

(** Twenty days closing at 99 and 101 in turn: mean 100, deviation 1. *)
Definition calm_history : DataFrame := alternating 99 101 10.

(** Twenty days closing at 90 and 110 in turn: mean 100, deviation 10. *)
Definition swinging_history : DataFrame := alternating 90 110 10.

(** Twenty days closing at 1 and 21 in turn: mean 11, deviation 10. *)
Definition wild_history : DataFrame := alternating 1 21 10.

(** * Properties *)

(** ** Comparisons and built-ins *)

Lemma Qltb_lt (x y : Q) : Qltb x y = true <-> x < y.
Proof.
  unfold Qltb. rewrite negb_true_iff.
  split; intro H.
  - apply Qnot_le_lt. intro Hle. apply Qle_bool_iff in Hle. congruence.
  - destruct (Qle_bool y x) eqn:E; trivial.
    apply Qle_bool_iff in E. lra.
Qed.

Lemma Qltb_ge (x y : Q) : Qltb x y = false <-> y <= x.
Proof.
  unfold Qltb. rewrite negb_false_iff. apply Qle_bool_iff.
Qed.

Lemma Qeqb_eq (x y : Q) : Qeqb x y = true <-> x == y.
Proof. apply Qeq_bool_iff. Qed.

Lemma Qeqb_neq (x y : Q) : Qeqb x y = false <-> ~ x == y.
Proof.
  rewrite <- Qeqb_eq. destruct (Qeqb x y); split; congruence.
Qed.

Lemma py_min_Qmin (a b : Q) : py_min a b == Qmin a b.
Proof.
  unfold py_min. destruct (Qltb b a) eqn:E.
  - apply Qltb_lt in E. symmetry. apply Q.min_r. lra.
  - apply Qltb_ge in E. symmetry. apply Q.min_l. exact E.
Qed.

Lemma range_nil (lo : Z) : range lo lo = [].
Proof. unfold range. now rewrite Z.sub_diag. Qed.

Lemma range_snoc (lo : Z) (n : nat) :
  range lo (lo + Z.of_nat (S n))
  = range lo (lo + Z.of_nat n) ++ [(lo + Z.of_nat n)%Z].
Proof.
  unfold range.
  replace (Z.to_nat (lo + Z.of_nat (S n) - lo)) with (S n) by lia.
  replace (Z.to_nat (lo + Z.of_nat n - lo)) with n by lia.
  now rewrite seq_S, map_app.
Qed.

Lemma In_range (lo hi g : Z) : In g (range lo hi) <-> (lo <= g < hi)%Z.
Proof.
  unfold range. rewrite in_map_iff. split.
  - intros (i & <- & Hi). apply in_seq in Hi. lia.
  - intros Hg. exists (Z.to_nat (g - lo)). split; [lia|].
    apply in_seq. lia.
Qed.

(** The three tiers, as ranges of a known length above a positive start. *)
Lemma grid_range_shape (period : Z) :
  exists (lo : Z) (n : nat),
    grid_range period = range lo (lo + Z.of_nat n) /\ (0 < lo)%Z.
Proof.
  unfold grid_range.
  destruct (period <=? 30)%Z; [|destruct (period <=? 90)%Z].
  - exists 5%Z, 11%nat. split; [reflexivity | lia].
  - exists 10%Z, 16%nat. split; [reflexivity | lia].
  - exists 20%Z, 31%nat. split; [reflexivity | lia].
Qed.

(** ** The search loop *)

Section Search.

Variables (lo hi commission_rate fixed_fee : Q) (period trade_volume : Z).

Let profit := total_profit lo hi commission_rate fixed_fee period trade_volume.
Let body := loop_body lo hi commission_rate fixed_fee period trade_volume.

(** After the loop has run over [first, first + n): either nothing was
    profitable and the pair is untouched, or the pair holds the first
    candidate of greatest profit. *)
Lemma search_invariant (first : Z) (n : nat) :
  let st := fold_left body (range first (first + Z.of_nat n)) (0, 0%Z) in
  (st = (0, 0%Z) /\
   forall g, (first <= g < first + Z.of_nat n)%Z -> ~ 0 < profit g)
  \/
  ((first <= snd st < first + Z.of_nat n)%Z /\
   fst st = profit (snd st) /\
   0 < profit (snd st) /\
   (forall g, (first <= g < first + Z.of_nat n)%Z ->
              profit g <= profit (snd st)) /\
   (forall g, (first <= g < snd st)%Z -> profit g < profit (snd st))).
Proof.
  induction n as [|n IH].
  - left. rewrite Z.add_0_r, range_nil. split; [reflexivity | intros; lia].
  - rewrite range_snoc, fold_left_app. cbn [fold_left].
    set (x := (first + Z.of_nat n)%Z) in *.
    destruct (fold_left body (range first x) (0, 0%Z)) as [m c] eqn:Est.
    cbn zeta in IH. cbn [fst snd] in IH.
    assert (Hsplit : forall g, (first <= g < first + Z.of_nat (S n))%Z ->
                               (first <= g < x)%Z \/ g = x)
      by (intros; subst x; lia).
    replace (body (m, c) x)
      with (if Qltb m (profit x) then (profit x, x) else (m, c))
      by reflexivity.
    destruct (Qltb m (profit x)) eqn:Ecmp.
    + apply Qltb_lt in Ecmp. right. cbn [fst snd].
      destruct IH as [[Hst Hnone] | (Hc & Hm & Hpos & Hmax & Hfirst)].
      * injection Hst as -> ->.
        split; [subst x; lia|]. split; [reflexivity|]. split; [exact Ecmp|].
        split.
        -- intros g Hg. destruct (Hsplit g Hg) as [Hin | ->]; [|lra].
           specialize (Hnone g Hin). lra.
        -- intros g Hg. specialize (Hnone g Hg). lra.
      * rewrite Hm in Ecmp.
        split; [subst x; lia|]. split; [reflexivity|]. split; [lra|].
        split.
        -- intros g Hg. destruct (Hsplit g Hg) as [Hin | ->]; [|lra].
           specialize (Hmax g Hin). lra.
        -- intros g Hg. specialize (Hmax g Hg). lra.
    + apply Qltb_ge in Ecmp.
      destruct IH as [[Hst Hnone] | (Hc & Hm & Hpos & Hmax & Hfirst)].
      * left. split; [exact Hst|].
        injection Hst as -> ->.
        intros g Hg. destruct (Hsplit g Hg) as [Hin | ->]; [auto | lra].
      * right. cbn [fst snd]. rewrite Hm in Ecmp.
        split; [subst x; lia|]. split; [exact Hm|]. split; [exact Hpos|].
        split; [|exact Hfirst].
        intros g Hg. destruct (Hsplit g Hg) as [Hin | ->]; auto.
Qed.

End Search.

(** ** The optimizer *)

Lemma optimize_unfold (lo hi amp commission_rate fixed_fee : Q)
    (period trade_volume : Z) :
  optimize_grid_for_period lo hi amp commission_rate fixed_fee period
    trade_volume
  = let st :=
      fold_left
        (loop_body lo hi commission_rate fixed_fee period trade_volume)
        (grid_range period) (0, 0%Z) in
    {| grid_count := snd st;
       estimated_profit := fst st;
       grid_size := div (Finite (hi - lo)) (Finite (inject_Z (snd st))) |}.
Proof.
  unfold optimize_grid_for_period.
  now destruct (fold_left _ _ _).
Qed.


Lemma div_positive_by_zero (w : Q) :
  0 < w -> div (Finite w) (Finite (inject_Z 0)) = Inf false.
Proof.
  intros Hw. unfold div. cbn [inject_Z].
  replace (Qeqb (0 # 1) 0) with true by reflexivity.
  destruct (Qeqb w 0) eqn:E.
  - apply Qeqb_eq in E. lra.
  - destruct (Qltb w 0) eqn:E'; trivial.
    apply Qltb_lt in E'. lra.
Qed.

(** C7.  The candidate grid counts that the loop of the optimizer runs over
    are the inclusive tier of the horizon: 5..15 up to 30 days, 10..25 above
    30 and up to 90 days, 20..50 above 90 days; 30, 31, 90 and 91 days fall
    in the first, second, second and third tier; the count the optimizer
    returns is one of its tier, or the initial 0.  (The code decides the tier
    for every integer horizon, the positive ones included.) *)
Theorem grid_range_tiers :
  (forall h : Z, (h <= 30)%Z ->
     grid_range h = [5; 6; 7; 8; 9; 10; 11; 12; 13; 14; 15]%Z) /\
  (forall h : Z, (30 < h <= 90)%Z ->
     grid_range h
     = [10; 11; 12; 13; 14; 15; 16; 17; 18; 19; 20; 21; 22; 23; 24; 25]%Z) /\
  (forall h : Z, (90 < h)%Z ->
     grid_range h
     = [20; 21; 22; 23; 24; 25; 26; 27; 28; 29; 30; 31; 32; 33; 34; 35; 36;
        37; 38; 39; 40; 41; 42; 43; 44; 45; 46; 47; 48; 49; 50]%Z) /\
  grid_range 30 = range 5 16 /\
  grid_range 31 = range 10 26 /\
  grid_range 90 = range 10 26 /\
  grid_range 91 = range 20 51 /\
  (forall (lo hi amp cr ff : Q) (h tv : Z),
     grid_count (optimize_grid_for_period lo hi amp cr ff h tv) = 0%Z \/
     In (grid_count (optimize_grid_for_period lo hi amp cr ff h tv))
        (grid_range h)).
Proof.
  split; [|split; [|split; [|repeat split; try reflexivity]]].
  - intros h Hh. unfold grid_range.
    destruct (Z.leb_spec h 30); [reflexivity | lia].
  - intros h Hh. unfold grid_range.
    destruct (Z.leb_spec h 30); [lia|].
    destruct (Z.leb_spec h 90); [reflexivity | lia].
  - intros h Hh. unfold grid_range.
    destruct (Z.leb_spec h 30); [lia|].
    destruct (Z.leb_spec h 90); [lia | reflexivity].
  - intros lo hi amp cr ff h tv.
    rewrite optimize_unfold. cbn zeta. cbn [grid_count].
    destruct (grid_range_shape h) as (first & n & Hshape & _).
    rewrite Hshape.
    destruct (search_invariant lo hi cr ff h tv first n)
      as [[Hst _] | (Hc & _)].
    + left. now rewrite Hst.
    + right. apply In_range. exact Hc.
Qed.

(** C5.  The profit that the loop computes for a candidate [g] is the
    profit model of the specification: gridSize = (highest - lowest) / g,
    transactionCost = (lowest + gridSize / 2) * commissionRate * tradeVolume
    + fixedFee * tradeVolume, avgProfitPerTrade = gridSize * tradeVolume -
    transactionCost, estimatedTrades = min(2g, 2 * horizon / 7) with the
    division exact, totalProfit = avgProfitPerTrade * estimatedTrades.  For
    the bounds 80 and 120, 10 grids, commission 0.001, fee 1 and volume 100:
    gridSize is 4, transactionCost 108.2 and avgProfitPerTrade 291.8. *)
Theorem total_profit_is_spec_model :
  (forall (lo hi cr ff : Q) (period tv g : Z),
     total_profit lo hi cr ff period tv g
     == spec_total_profit lo hi cr ff tv period g) /\
  (forall g period : Z,
     estimated_trades g period
     == Qmin (2 * inject_Z g) (2 * inject_Z period / 7)) /\
  estimated_trades 15 30 == 60 # 7 /\
  candidate_grid_size 80 120 10 == 4 /\
  transaction_cost 80 (candidate_grid_size 80 120 10) (1 # 1000) 1 100
  == 1082 # 10 /\
  avg_profit_per_trade (candidate_grid_size 80 120 10) 100
    (transaction_cost 80 (candidate_grid_size 80 120 10) (1 # 1000) 1 100)
  == 2918 # 10.
Proof.
  assert (Htrades : forall g period : Z,
             estimated_trades g period
             == Qmin (2 * inject_Z g) (2 * inject_Z period / 7)).
  { intros g period. unfold estimated_trades.
    rewrite py_min_Qmin.
    apply Q.min_compat.
    - rewrite inject_Z_mult. change (inject_Z 2) with 2. ring.
    - field. }
  split; [|split; [exact Htrades | repeat split; reflexivity]].
  intros lo hi cr ff period tv g.
  unfold total_profit, spec_total_profit. cbn zeta.
  rewrite Htrades.
  reflexivity.
Qed.

(** The loop on rounded profits keeps the invariant of the exact one. *)
Section RoundedSearch.

Variable rnd : Q -> Q.
Variables (lo hi commission_rate fixed_fee : Q) (period trade_volume : Z).

Let profit :=
  rounded_total_profit rnd lo hi commission_rate fixed_fee period trade_volume.
Let body :=
  rounded_loop_body rnd lo hi commission_rate fixed_fee period trade_volume.

Lemma rounded_search_invariant (first : Z) (n : nat) :
  let st := fold_left body (range first (first + Z.of_nat n)) (0, 0%Z) in
  (st = (0, 0%Z) /\
   forall g, (first <= g < first + Z.of_nat n)%Z -> ~ 0 < profit g)
  \/
  ((first <= snd st < first + Z.of_nat n)%Z /\
   fst st = profit (snd st) /\
   0 < profit (snd st) /\
   (forall g, (first <= g < first + Z.of_nat n)%Z ->
              profit g <= profit (snd st)) /\
   (forall g, (first <= g < snd st)%Z -> profit g < profit (snd st))).
Proof.
  induction n as [|n IH].
  - left. rewrite Z.add_0_r, range_nil. split; [reflexivity | intros; lia].
  - rewrite range_snoc, fold_left_app. cbn [fold_left].
    set (x := (first + Z.of_nat n)%Z) in *.
    destruct (fold_left body (range first x) (0, 0%Z)) as [m c] eqn:Est.
    cbn zeta in IH. cbn [fst snd] in IH.
    assert (Hsplit : forall g, (first <= g < first + Z.of_nat (S n))%Z ->
                               (first <= g < x)%Z \/ g = x)
      by (intros; subst x; lia).
    replace (body (m, c) x)
      with (if Qltb m (profit x) then (profit x, x) else (m, c))
      by reflexivity.
    destruct (Qltb m (profit x)) eqn:Ecmp.
    + apply Qltb_lt in Ecmp. right. cbn [fst snd].
      split; [subst x; lia|]. split; [reflexivity|].
      destruct IH as [[Hst Hnone] | (Hc & Hm & Hpos & Hmax & Hfirst)].
      * injection Hst as -> ->.
        split; [exact Ecmp|]. split.
        -- intros g Hg. destruct (Hsplit g Hg) as [Hin | ->]; [|lra].
           specialize (Hnone g Hin). lra.
        -- intros g Hg. specialize (Hnone g Hg). lra.
      * rewrite Hm in Ecmp.
        split; [lra|]. split.
        -- intros g Hg. destruct (Hsplit g Hg) as [Hin | ->]; [|lra].
           specialize (Hmax g Hin). lra.
        -- intros g Hg. specialize (Hmax g Hg). lra.
    + apply Qltb_ge in Ecmp.
      destruct IH as [[Hst Hnone] | (Hc & Hm & Hpos & Hmax & Hfirst)].
      * left. split; [exact Hst|].
        injection Hst as -> ->.
        intros g Hg. destruct (Hsplit g Hg) as [Hin | ->]; [auto | lra].
      * right. cbn [fst snd]. rewrite Hm in Ecmp.
        split; [subst x; lia|]. split; [exact Hm|]. split; [exact Hpos|].
        split; [|exact Hfirst].
        intros g Hg. destruct (Hsplit g Hg) as [Hin | ->]; auto.
Qed.

End RoundedSearch.

Lemma rounded_optimize_unfold (rnd : Q -> Q) (lo hi amp cr ff : Q)
    (period tv : Z) :
  rounded_optimize_grid_for_period rnd lo hi amp cr ff period tv
  = let st :=
      fold_left (rounded_loop_body rnd lo hi cr ff period tv)
        (grid_range period) (0, 0%Z) in
    {| grid_count := snd st;
       estimated_profit := fst st;
       grid_size :=
         if (snd st =? 0)%Z
         then div (Finite (rnd (hi - lo))) (Finite 0)
         else Finite (rounded_candidate_grid_size rnd lo hi (snd st)) |}.
Proof.
  unfold rounded_optimize_grid_for_period.
  now destruct (fold_left _ _ _).
Qed.

(** C6 (amended).  However the arithmetic rounds (the rounding of a float64
    included), when some candidate of the tier has a strictly positive
    computed profit, the optimizer returns the candidate of the tier whose
    computed profit is greatest: no candidate's computed profit exceeds it
    and that of every smaller candidate falls strictly short of it, so among
    candidates whose computed profits are equal the smallest is returned.
    The profit reported is that candidate's computed profit, the grid size
    its computed grid size. *)
Theorem optimizer_returns_first_best_computed (rnd : Q -> Q)
    (lo hi amp cr ff : Q) (period tv : Z) :
  (exists g, In g (grid_range period) /\
             0 < rounded_total_profit rnd lo hi cr ff period tv g) ->
  let r := rounded_optimize_grid_for_period rnd lo hi amp cr ff period tv in
  let profit := rounded_total_profit rnd lo hi cr ff period tv in
  In (grid_count r) (grid_range period) /\
  estimated_profit r = profit (grid_count r) /\
  0 < estimated_profit r /\
  (forall g, In g (grid_range period) -> profit g <= profit (grid_count r)) /\
  (forall g, In g (grid_range period) -> (g < grid_count r)%Z ->
             profit g < profit (grid_count r)) /\
  grid_size r
  = Finite (rounded_candidate_grid_size rnd lo hi (grid_count r)).
Proof.
  intros (g0 & Hg0 & Hpos0) r profit. subst r.
  rewrite rounded_optimize_unfold. cbn zeta.
  destruct (grid_range_shape period) as (first & n & Hshape & Hfirst).
  rewrite Hshape in *.
  pose proof (rounded_search_invariant rnd lo hi cr ff period tv first n)
    as Hinv.
  cbn zeta in Hinv.
  destruct (fold_left _ _ _) as [m c].
  cbn [grid_count estimated_profit grid_size fst snd] in *.
  apply In_range in Hg0.
  destruct Hinv as [[_ Hnone] | (Hc & Hm & Hpos & Hmax & Hlt)].
  - exfalso. exact (Hnone g0 Hg0 Hpos0).
  - fold profit in Hm, Hpos, Hmax, Hlt.
    split; [apply In_range; exact Hc|].
    split; [exact Hm|].
    split; [rewrite Hm; exact Hpos|].
    split; [intros g Hg; apply Hmax, In_range, Hg|].
    split.
    + intros g Hg Hlt'. apply In_range in Hg. apply Hlt. lia.
    + destruct (Z.eqb_spec c 0); [lia | reflexivity].
Qed.

Lemma optimizer_returns_first_best_computed_witness :
  let r := rounded_optimize_grid_for_period binary64 80 120 0 0 0 90 100 in
  grid_count r = 12%Z /\
  estimated_profit r = rounded_total_profit binary64 80 120 0 0 90 100 12 /\
  (forall g, In g (grid_range 90) -> (g < 12)%Z ->
             rounded_total_profit binary64 80 120 0 0 90 100 g
             < rounded_total_profit binary64 80 120 0 0 90 100 12).
Proof.
  assert (H : exists g, In g (grid_range 90) /\
                        0 < rounded_total_profit binary64 80 120 0 0 90 100 g)
    by (exists 10%Z; split; [left; reflexivity | vm_compute; reflexivity]).
  pose proof (optimizer_returns_first_best_computed binary64 80 120 0 0 0
                90 100 H) as (_ & Hp & _ & _ & Hfirst & _).
  assert (Hc : grid_count
                 (rounded_optimize_grid_for_period binary64 80 120 0 0 0
                    90 100) = 12%Z) by (vm_compute; reflexivity).
  cbn zeta. rewrite Hc in Hp, Hfirst.
  split; [exact Hc|]. split; [exact Hp | exact Hfirst].
Defined.

(** C6 as stated fails on exact ties: between 80 and 120, with no commission
    and no fee, over 90 days and for a volume of 100, the candidates 10, 11
    and 12 have the same exact profit 8000, the greatest of the tier; the
    float64 profits are 8000, 8000 and 8000.000000000001, and the code
    returns 12, not the smallest candidate 10. *)
Lemma exact_tie_counterexample :
  grid_count (rounded_optimize_grid_for_period binary64 80 120 0 0 0 90 100)
  = 12%Z /\
  In 10%Z (grid_range 90) /\
  (forall g, In g (grid_range 90) ->
             total_profit 80 120 0 0 90 100 g
             <= total_profit 80 120 0 0 90 100 10) /\
  total_profit 80 120 0 0 90 100 10 == total_profit 80 120 0 0 90 100 12 /\
  rounded_total_profit binary64 80 120 0 0 90 100 10
  < rounded_total_profit binary64 80 120 0 0 90 100 12.
Proof.
  split; [vm_compute; reflexivity|].
  split; [left; reflexivity|].
  split.
  - intros g Hg. vm_compute in Hg.
    repeat (destruct Hg as [<- | Hg]; [vm_compute; discriminate|]).
    destruct Hg.
  - split; vm_compute; reflexivity.
Qed.

(** C1 (what the code does instead).  When the range is not empty and no
    candidate of the tier has a strictly positive profit, the optimizer
    raises nothing and reports no such outcome: it returns the initial pair,
    grid count 0 and profit 0, with the grid size that numpy gives for the
    range width over zero, plus infinity. *)
Theorem optimizer_without_profitable_candidate
    (lo hi amp cr ff : Q) (period tv : Z) :
  lo < hi ->
  (forall g, In g (grid_range period) ->
             ~ 0 < total_profit lo hi cr ff period tv g) ->
  optimize_grid_for_period lo hi amp cr ff period tv
  = {| grid_count := 0; estimated_profit := 0; grid_size := Inf false |}.
Proof.
  intros Hlt Hnone.
  rewrite optimize_unfold. cbn zeta.
  destruct (grid_range_shape period) as (first & n & Hshape & Hfirst).
  rewrite Hshape in *.
  pose proof (search_invariant lo hi cr ff period tv first n) as Hinv.
  cbn zeta in Hinv.
  destruct Hinv as [[-> _] | (Hc & _ & Hpos & _)].
  - cbn [fst snd]. f_equal. apply div_positive_by_zero. lra.
  - exfalso. apply (Hnone _ (proj2 (In_range _ _ _) Hc)). exact Hpos.
Qed.

Lemma optimizer_without_profitable_candidate_witness :
  optimize_grid_for_period 80 120 0 (1 # 1000) 10 30 100
  = {| grid_count := 0; estimated_profit := 0; grid_size := Inf false |}.
Proof.
  apply optimizer_without_profitable_candidate.
  - reflexivity.
  - intros g Hg. vm_compute in Hg.
    repeat (destruct Hg as [<- | Hg];
            [intro H; vm_compute in H; discriminate H|]).
    destruct Hg.
Defined.

(** ** The calculator, step by step *)

Lemma for_each_period_run (lo hi amp cr ff : Q) (tv : Z)
    (periods : list Z) (d : dict grid_strategy) (tr : list event) :
  for_each_period lo hi amp cr ff tv periods d tr
  = (inr (fold_left
            (fun d period =>
               dict_set d period
                 (optimize_grid_for_period lo hi amp cr ff period tv))
            periods d),
     tr ++ map Optimized periods).
Proof.
  revert d tr. induction periods as [|period rest IH]; intros d tr.
  - cbn. now rewrite app_nil_r.
  - cbn [for_each_period fold_left map]. unfold bind, tick.
    rewrite IH, <- app_assoc. reflexivity.
Qed.

Lemma getitem_enumerated (p : RiskProfile) (tr : list event) :
  getitem risk_multipliers (risk_key p) tr = (inr (multiplier_of p), tr).
Proof. destruct p; reflexivity. Qed.

Lemma getitem_other (risk_level : string) (tr : list event) :
  ~ In risk_level ["low"; "medium"; "high"]%string ->
  getitem risk_multipliers risk_level tr = (inl (KeyError risk_level), tr).
Proof.
  intros Hnot. cbn [getitem risk_multipliers].
  destruct (String.eqb_spec "low" risk_level) as [<-|_];
    [exfalso; apply Hnot; cbn; auto|].
  destruct (String.eqb_spec "medium" risk_level) as [<-|_];
    [exfalso; apply Hnot; cbn; auto|].
  destruct (String.eqb_spec "high" risk_level) as [<-|_];
    [exfalso; apply Hnot; cbn; auto|].
  reflexivity.
Qed.

Lemma enumerated_risk_key (risk_level : string) :
  In risk_level ["low"; "medium"; "high"]%string <->
  exists p, risk_level = risk_key p.
Proof.
  split.
  - intros [<- | [<- | [<- | []]]];
      [exists Low_risk | exists Medium_risk | exists High_risk]; reflexivity.
  - intros ([] & ->); cbn; auto.
Qed.

(** A history of twenty rows or more and an enumerated risk level: the run
    goes through every step and returns the dict of lines 48-55. *)
Lemma calculate_run (hist_data : DataFrame) (periods : list Z)
    (p : RiskProfile) (cr ff : Q) (tv : Z) :
  (20 <= len hist_data)%Z ->
  let close_prices := map Close hist_data in
  let returns := dropna (pct_change close_prices) in
  let lo := np_mean close_prices - multiplier_of p * np_std close_prices in
  let hi := np_mean close_prices + multiplier_of p * np_std close_prices in
  let amp := np_mean (map (fun r => High r - Low r) hist_data) in
  run (calculate_grid_parameters hist_data periods (risk_key p) cr ff tv)
  = (inr {| lowest_price := lo;
            highest_price := hi;
            current_price := last close_prices 0;
            sharpe_ratio :=
              div (sub (mul (Series_mean returns) (Finite 252))
                       (Finite (2 # 100)))
                  (mul (Series_std returns) (sqrt (Finite 252)));
            var_95 := norm_ppf_05 (Series_mean returns) (Series_std returns);
            period_strategies :=
              fold_left
                (fun d period =>
                   dict_set d period
                     (optimize_grid_for_period lo hi amp cr ff period tv))
                periods [] |},
     Summarized :: RangeSelected :: map Optimized periods).
Proof.
  intros Hlen. cbn zeta.
  unfold run, calculate_grid_parameters.
  destruct (Z.ltb_spec (len hist_data) 20) as [Hshort|_]; [lia|].
  unfold bind at 1. unfold tick at 1.
  unfold bind at 1. rewrite getitem_enumerated.
  unfold bind at 1. unfold tick at 1.
  unfold bind at 1. rewrite for_each_period_run.
  reflexivity.
Qed.

Lemma calculate_short_history (hist_data : DataFrame) (periods : list Z)
    (risk_level : string) (cr ff : Q) (tv : Z) :
  (len hist_data < 20)%Z ->
  run (calculate_grid_parameters hist_data periods risk_level cr ff tv)
  = (inl (ValueError "Insufficient historical data to calculate parameters"),
     []).
Proof.
  intros Hlen. unfold run, calculate_grid_parameters.
  destruct (Z.ltb_spec (len hist_data) 20); [reflexivity | lia].
Qed.

Lemma calculate_unknown_risk (hist_data : DataFrame) (periods : list Z)
    (risk_level : string) (cr ff : Q) (tv : Z) :
  (20 <= len hist_data)%Z ->
  ~ In risk_level ["low"; "medium"; "high"]%string ->
  run (calculate_grid_parameters hist_data periods risk_level cr ff tv)
  = (inl (KeyError risk_level), [Summarized]).
Proof.
  intros Hlen Hrisk. unfold run, calculate_grid_parameters.
  destruct (Z.ltb_spec (len hist_data) 20) as [Hshort|_]; [lia|].
  unfold bind at 1. unfold tick at 1.
  unfold bind at 1. rewrite (getitem_other _ _ Hrisk).
  reflexivity.
Qed.

Lemma div_by_zero_not_finite (x : np_float) (z : Q) :
  z == 0 -> is_finite (div x (Finite z)) = false.
Proof.
  intros Hz. apply Qeqb_eq in Hz.
  destruct x as [a| |]; cbn [div]; trivial.
  rewrite Hz. now destruct (Qeqb a 0).
Qed.

(** C2 (what the code does instead).  For a history of twenty rows or more
    whose daily returns have standard deviation zero, and an enumerated risk
    level, the calculator raises nothing: it returns its dict, and the
    Sharpe ratio in it is an infinity or nan. *)
Theorem zero_volatility_sharpe_not_finite (hist_data : DataFrame)
    (periods : list Z) (p : RiskProfile) (cr ff : Q) (tv : Z) (s : Q) :
  (20 <= len hist_data)%Z ->
  Series_std (dropna (pct_change (map Close hist_data))) = Finite s ->
  s == 0 ->
  exists r,
    outcome (calculate_grid_parameters hist_data periods (risk_key p) cr ff tv)
    = inr r /\
    is_finite (sharpe_ratio r) = false.
Proof.
  intros Hlen Hstd Hs.
  pose proof (calculate_run hist_data periods p cr ff tv Hlen) as Hrun.
  cbn zeta in Hrun. unfold outcome. rewrite Hrun.
  eexists. split; [reflexivity|].
  cbn [sharpe_ratio fst]. rewrite Hstd.
  change (sqrt (Finite 252)) with (Finite (sqrtQ 252)).
  cbn [mul]. apply div_by_zero_not_finite.
  rewrite Hs. ring.
Qed.

Lemma zero_volatility_sharpe_not_finite_witness :
  exists r,
    outcome (calculate_grid_parameters flat_history [30; 90; 180]%Z "medium"
               (1 # 1000) 1 100)
    = inr r /\
    is_finite (sharpe_ratio r) = false.
Proof.
  eapply (zero_volatility_sharpe_not_finite flat_history [30; 90; 180]%Z
            Medium_risk (1 # 1000) 1 100).
  - vm_compute. discriminate.
  - vm_compute. reflexivity.
  - reflexivity.
Defined.

(** C3 (amended).  For a history of twenty rows or more and a risk level
    that is none of low, medium and high, the calculator fails with the
    [KeyError] of the multiplier lookup; by then the statistics have been
    computed, and neither the range nor any horizon has been treated. *)
Theorem unknown_risk_fails_after_statistics (hist_data : DataFrame)
    (periods : list Z) (risk_level : string) (cr ff : Q) (tv : Z) :
  (20 <= len hist_data)%Z ->
  ~ In risk_level ["low"; "medium"; "high"]%string ->
  outcome (calculate_grid_parameters hist_data periods risk_level cr ff tv)
  = inl (KeyError risk_level) /\
  trace (calculate_grid_parameters hist_data periods risk_level cr ff tv)
  = [Summarized].
Proof.
  intros Hlen Hrisk. unfold outcome, trace.
  now rewrite (calculate_unknown_risk _ periods _ cr ff tv Hlen Hrisk).
Qed.

Lemma unknown_risk_fails_after_statistics_witness :
  outcome (calculate_grid_parameters calm_history [30; 90; 180]%Z "extreme"
             (1 # 1000) 1 100)
  = inl (KeyError "extreme") /\
  trace (calculate_grid_parameters calm_history [30; 90; 180]%Z "extreme"
           (1 # 1000) 1 100)
  = [Summarized].
Proof.
  apply unknown_risk_fails_after_statistics.
  - vm_compute. discriminate.
  - cbn. intros [H | [H | [H | []]]]; discriminate H.
Defined.

(** C3 as stated fails: with the risk level "extreme" the run has computed
    the statistics when it fails. *)
Lemma unknown_risk_statistics_counterexample :
  ~ (exists e,
       outcome (calculate_grid_parameters calm_history [30; 90; 180]%Z
                  "extreme" (1 # 1000) 1 100)
       = inl e /\
       ~ In Summarized
           (trace (calculate_grid_parameters calm_history [30; 90; 180]%Z
                     "extreme" (1 # 1000) 1 100))).
Proof.
  intros (e & _ & Hnone). apply Hnone.
  vm_compute. left. reflexivity.
Qed.

(** C4 (amended).  A trade volume or a horizon that is zero or negative is
    not rejected: for a history of twenty rows or more, an enumerated risk
    level, and a trade volume and horizons of the size a float holds, the
    calculator returns its dict also when the trade volume is not positive
    or some requested horizon is not positive. *)
Theorem nonpositive_volume_or_horizon_not_rejected (hist_data : DataFrame)
    (periods : list Z) (p : RiskProfile) (cr ff : Q) (tv : Z) :
  (20 <= len hist_data)%Z ->
  float_exact tv -> Forall float_exact periods ->
  (tv <= 0)%Z \/ Exists (fun h => (h <= 0)%Z) periods ->
  exists r,
    outcome (calculate_grid_parameters hist_data periods (risk_key p)
               cr ff tv)
    = inr r.
Proof.
  intros Hlen _ _ _.
  pose proof (calculate_run hist_data periods p cr ff tv Hlen) as Hrun.
  cbn zeta in Hrun. unfold outcome. rewrite Hrun. eexists. reflexivity.
Qed.

Lemma nonpositive_volume_or_horizon_not_rejected_witness :
  exists r,
    outcome (calculate_grid_parameters calm_history [30; -7; 0]%Z
               (risk_key Medium_risk) (1 # 1000) 1 (-100))
    = inr r.
Proof.
  apply nonpositive_volume_or_horizon_not_rejected.
  - vm_compute. discriminate.
  - unfold float_exact. vm_compute. discriminate.
  - repeat constructor; unfold float_exact; vm_compute; discriminate.
  - left. lia.
Defined.

(** C4 as stated fails: a negative trade volume, a zero trade volume and a
    negative horizon each leave the calculator returning its dict. *)
Lemma unvalidated_inputs_counterexample :
  ~ (exists e,
       outcome (calculate_grid_parameters calm_history [30; 90; 180]%Z
                  "medium" (1 # 1000) 1 (-100))
       = inl e) /\
  ~ (exists e,
       outcome (calculate_grid_parameters calm_history [30; 90; 180]%Z
                  "medium" (1 # 1000) 1 0)
       = inl e) /\
  ~ (exists e,
       outcome (calculate_grid_parameters calm_history [-7]%Z
                  "medium" (1 # 1000) 1 100)
       = inl e).
Proof.
  assert (Hlen : (20 <= len calm_history)%Z) by (vm_compute; discriminate).
  pose proof (calculate_run calm_history [30; 90; 180]%Z Medium_risk
                (1 # 1000) 1 (-100) Hlen) as Hnegative.
  pose proof (calculate_run calm_history [30; 90; 180]%Z Medium_risk
                (1 # 1000) 1 0 Hlen) as Hzero.
  pose proof (calculate_run calm_history [-7]%Z Medium_risk
                (1 # 1000) 1 100 Hlen) as Hhorizon.
  cbn zeta in Hnegative, Hzero, Hhorizon. cbn [risk_key] in *.
  unfold outcome. rewrite Hnegative, Hzero, Hhorizon. cbn [fst].
  repeat split; intros (e & He); discriminate He.
Qed.

(** ** The price range *)

(** C8.  For a history of twenty rows or more and each of the three risk
    levels, the range returned is mean - m * std and mean + m * std of the
    closing prices, with m = 1.5 for low, 2 for medium and 2.5 for high, and
    nothing clamps the lower bound: a mean of 100 with deviation 10 at
    medium risk gives 80 and 120, and a mean of 11 with deviation 10 at high
    risk gives a negative lower bound. *)
Theorem price_range_by_multiplier :
  (forall (hist_data : DataFrame) (periods : list Z) (p : RiskProfile)
          (cr ff : Q) (tv : Z),
     (20 <= len hist_data)%Z ->
     exists r,
       outcome (calculate_grid_parameters hist_data periods (risk_key p)
                  cr ff tv)
       = inr r /\
       lowest_price r
       = np_mean (map Close hist_data)
         - multiplier_of p * np_std (map Close hist_data) /\
       highest_price r
       = np_mean (map Close hist_data)
         + multiplier_of p * np_std (map Close hist_data)) /\
  (multiplier_of Low_risk == 15 # 10 /\
   multiplier_of Medium_risk == 2 /\
   multiplier_of High_risk == 25 # 10) /\
  (np_mean (map Close swinging_history) == 100 /\
   np_std (map Close swinging_history) == 10 /\
   exists r,
     outcome (calculate_grid_parameters swinging_history [30; 90; 180]%Z
                "medium" (1 # 1000) 1 100)
     = inr r /\
     lowest_price r == 80 /\ highest_price r == 120) /\
  (exists r,
     outcome (calculate_grid_parameters wild_history [30; 90; 180]%Z
                "high" (1 # 1000) 1 100)
     = inr r /\
     lowest_price r == -14 /\ highest_price r == 36).
Proof.
  split; [|split; [|split]].
  - intros hist_data periods p cr ff tv Hlen.
    pose proof (calculate_run hist_data periods p cr ff tv Hlen) as Hrun.
    cbn zeta in Hrun. unfold outcome. rewrite Hrun.
    eexists. split; [reflexivity|]. split; reflexivity.
  - repeat split; reflexivity.
  - split; [vm_compute; reflexivity|]. split; [vm_compute; reflexivity|].
    pose proof (calculate_run swinging_history [30; 90; 180]%Z Medium_risk
                  (1 # 1000) 1 100%Z ltac:(vm_compute; discriminate)) as Hrun.
    cbn zeta in Hrun. cbn [risk_key] in Hrun. unfold outcome. rewrite Hrun.
    eexists. split; [reflexivity|].
    cbn [fst lowest_price highest_price].
    split; vm_compute; reflexivity.
  - pose proof (calculate_run wild_history [30; 90; 180]%Z High_risk
                  (1 # 1000) 1 100%Z ltac:(vm_compute; discriminate)) as Hrun.
    cbn zeta in Hrun. cbn [risk_key] in Hrun. unfold outcome. rewrite Hrun.
    eexists. split; [reflexivity|].
    cbn [fst lowest_price highest_price].
    split; vm_compute; reflexivity.
Qed.

Lemma price_range_by_multiplier_witness :
  exists r,
    outcome (calculate_grid_parameters calm_history [30]%Z (risk_key Low_risk)
               (1 # 1000) 1 100)
    = inr r /\
    lowest_price r
    = np_mean (map Close calm_history)
      - multiplier_of Low_risk * np_std (map Close calm_history) /\
    highest_price r
    = np_mean (map Close calm_history)
      + multiplier_of Low_risk * np_std (map Close calm_history).
Proof.
  apply (proj1 price_range_by_multiplier).
  vm_compute. discriminate.
Defined.




(** ** The dict of per-horizon results *)

Section Dict.

Context {V : Type}.

Lemma existsb_eqb_In (h : Z) (l : list Z) :
  existsb (Z.eqb h) l = true <-> In h l.
Proof.
  rewrite existsb_exists. split.
  - intros (x & Hx & Heq). apply Z.eqb_eq in Heq. now subst.
  - intros Hin. exists h. split; [exact Hin | apply Z.eqb_refl].
Qed.

Lemma dict_keys_set (d : dict V) (k : Z) (v : V) :
  dict_keys (dict_set d k v)
  = if existsb (Z.eqb k) (dict_keys d) then dict_keys d
    else dict_keys d ++ [k].
Proof.
  induction d as [|[k' v'] rest IH]; [reflexivity|].
  cbn [dict_set dict_keys map fst existsb].
  rewrite (Z.eqb_sym k k').
  destruct (k' =? k)%Z; cbn [orb map fst]; [reflexivity|].
  fold (dict_keys (dict_set rest k v)). fold (dict_keys rest).
  rewrite IH. now destruct (existsb (Z.eqb k) (dict_keys rest)).
Qed.

Lemma dict_get_set (d : dict V) (k h : Z) (v : V) :
  dict_get (dict_set d k v) h
  = if (k =? h)%Z then Some v else dict_get d h.
Proof.
  induction d as [|[k' v'] rest IH]; [reflexivity|].
  cbn [dict_set dict_get].
  destruct (Z.eqb_spec k' k) as [->|Hne]; cbn [dict_get].
  - now destruct (k =? h)%Z.
  - rewrite IH.
    destruct (Z.eqb_spec k' h) as [->|_]; [|reflexivity].
    destruct (Z.eqb_spec k h) as [->|_]; [contradiction | reflexivity].
Qed.

Variable f : Z -> V.

Lemma dict_keys_assignments (periods : list Z) (d : dict V) :
  dict_keys (fold_left (fun d p => dict_set d p (f p)) periods d)
  = dict_keys d ++ first_occurrences_from (dict_keys d) periods.
Proof.
  revert d. induction periods as [|p rest IH]; intros d.
  - cbn. now rewrite app_nil_r.
  - cbn [fold_left first_occurrences_from].
    rewrite IH, dict_keys_set.
    destruct (existsb (Z.eqb p) (dict_keys d)); [reflexivity|].
    now rewrite <- app_assoc.
Qed.

Lemma dict_get_assignments (periods : list Z) (d : dict V) (h : Z) :
  dict_get (fold_left (fun d p => dict_set d p (f p)) periods d) h
  = if existsb (Z.eqb h) periods then Some (f h) else dict_get d h.
Proof.
  revert d. induction periods as [|p rest IH]; intros d; [reflexivity|].
  cbn [fold_left existsb]. rewrite IH, dict_get_set.
  rewrite (Z.eqb_sym h p).
  destruct (Z.eqb_spec p h) as [->|_]; cbn [orb]; [|reflexivity].
  now destruct (existsb (Z.eqb h) rest).
Qed.

End Dict.

Lemma first_occurrences_from_NoDup (horizons seen : list Z) :
  NoDup seen -> NoDup (seen ++ first_occurrences_from seen horizons).
Proof.
  revert seen. induction horizons as [|h rest IH]; intros seen Hseen.
  - cbn. now rewrite app_nil_r.
  - cbn [first_occurrences_from].
    destruct (existsb (Z.eqb h) seen) eqn:E; [now apply IH|].
    replace (seen ++ h :: first_occurrences_from (seen ++ [h]) rest)
      with ((seen ++ [h]) ++ first_occurrences_from (seen ++ [h]) rest)
      by now rewrite <- app_assoc.
    apply IH.
    apply NoDup_app; [exact Hseen | repeat constructor; intros [] |].
    intros x Hx [<- | []].
    apply existsb_eqb_In in Hx. congruence.
Qed.

Lemma first_occurrences_from_In (horizons seen : list Z) (h : Z) :
  In h (seen ++ first_occurrences_from seen horizons)
  <-> In h seen \/ In h horizons.
Proof.
  revert seen. induction horizons as [|x rest IH]; intros seen.
  - cbn. rewrite app_nil_r. tauto.
  - cbn [first_occurrences_from].
    destruct (existsb (Z.eqb x) seen) eqn:E.
    + rewrite IH. apply existsb_eqb_In in E. cbn.
      split; [tauto|]. intros [H | [<- | H]]; tauto.
    + replace (seen ++ x :: first_occurrences_from (seen ++ [x]) rest)
        with ((seen ++ [x]) ++ first_occurrences_from (seen ++ [x]) rest)
        by now rewrite <- app_assoc.
      rewrite IH, in_app_iff. cbn. tauto.
Qed.

(** C10.  For a history of twenty rows or more and an enumerated risk
    level, the calculator returns its dict whether or not a horizon is
    requested more than once, and the per-horizon results are keyed by the
    requested horizons in the order of their first occurrence: a horizon
    that is requested, however many times, has exactly one entry, which
    holds the optimizer's result for it.  The request 30, 90, 30 gives the
    keys 30, 90. *)
Theorem repeated_horizon_has_one_entry :
  (forall (hist_data : DataFrame) (periods : list Z) (p : RiskProfile)
          (cr ff : Q) (tv : Z),
     (20 <= len hist_data)%Z ->
     exists r,
       outcome (calculate_grid_parameters hist_data periods (risk_key p)
                  cr ff tv)
       = inr r /\
       dict_keys (period_strategies r) = first_occurrences periods /\
       NoDup (dict_keys (period_strategies r)) /\
       forall h, In h periods ->
         count_occ Z.eq_dec (dict_keys (period_strategies r)) h = 1%nat /\
         dict_get (period_strategies r) h
         = Some (optimize_grid_for_period (lowest_price r) (highest_price r)
                   (np_mean (map (fun b => High b - Low b) hist_data))
                   cr ff h tv)) /\
  first_occurrences [30; 90; 30]%Z = [30; 90]%Z /\
  (exists r,
     outcome (calculate_grid_parameters calm_history [30; 90; 30]%Z "medium"
                (1 # 1000) 1 100)
     = inr r /\
     dict_keys (period_strategies r) = [30; 90]%Z).
Proof.
  split; [|split; [reflexivity|]].
  - intros hist_data periods p cr ff tv Hlen.
    pose proof (calculate_run hist_data periods p cr ff tv Hlen) as Hrun.
    cbn zeta in Hrun. unfold outcome. rewrite Hrun. clear Hrun.
    eexists. split; [reflexivity|].
    cbn [fst period_strategies lowest_price highest_price].
    set (lo := np_mean (map Close hist_data) - _).
    set (hi := np_mean (map Close hist_data) + _).
    set (amp := np_mean (map _ hist_data)).
    pose (opt := fun h : Z => optimize_grid_for_period lo hi amp cr ff h tv).
    change (fold_left _ periods [])
      with (fold_left (fun d h => dict_set d h (opt h)) periods []).
    change (fun h : Z => optimize_grid_for_period lo hi amp cr ff h tv)
      with opt.
    assert (Hkeys :
              dict_keys (fold_left (fun d h => dict_set d h (opt h)) periods [])
              = first_occurrences periods)
      by (rewrite dict_keys_assignments; reflexivity).
    assert (Hnodup : NoDup (first_occurrences periods))
      by (apply (first_occurrences_from_NoDup periods []); constructor).
    split; [exact Hkeys|]. rewrite Hkeys.
    split; [exact Hnodup|].
    intros h Hh. split.
    + apply NoDup_count_occ'; [exact Hnodup|].
      apply (first_occurrences_from_In periods [] h). now right.
    + rewrite (dict_get_assignments opt).
      apply existsb_eqb_In in Hh. now rewrite Hh.
  - pose proof (calculate_run calm_history [30; 90; 30]%Z Medium_risk
                  (1 # 1000) 1 100%Z ltac:(vm_compute; discriminate)) as Hrun.
    cbn zeta in Hrun. cbn [risk_key] in Hrun. unfold outcome. rewrite Hrun.
    eexists. split; [reflexivity|].
    cbn [fst period_strategies]. reflexivity.
Qed.

Lemma repeated_horizon_has_one_entry_witness :
  exists r,
    outcome (calculate_grid_parameters calm_history [180; 30; 180; 30]%Z
               (risk_key High_risk) (1 # 1000) 1 100)
    = inr r /\
    dict_keys (period_strategies r) = [180; 30]%Z.
Proof.
  assert (Hlen : (20 <= len calm_history)%Z) by (vm_compute; discriminate).
  destruct (proj1 repeated_horizon_has_one_entry calm_history
              [180; 30; 180; 30]%Z High_risk (1 # 1000) 1 100%Z Hlen)
    as (r & Hr & Hkeys & _).
  exists r. split; [exact Hr | exact Hkeys].
Defined.

(** * Further properties of the code *)

(** ** The optimizer's result *)

Lemma optimize_nothing_profitable (lo hi amp cr ff : Q) (period tv : Z) :
  (forall g, In g (grid_range period) ->
             ~ 0 < total_profit lo hi cr ff period tv g) ->
  optimize_grid_for_period lo hi amp cr ff period tv
  = {| grid_count := 0;
       estimated_profit := 0;
       grid_size := div (Finite (hi - lo)) (Finite (inject_Z 0)) |}.
Proof.
  intros Hnone. rewrite optimize_unfold. cbn zeta.
  destruct (grid_range_shape period) as (first & n & Hshape & _).
  rewrite Hshape in *.
  destruct (search_invariant lo hi cr ff period tv first n)
    as [[-> _] | (Hc & _ & Hpos & _)].
  - reflexivity.
  - exfalso. apply (Hnone _ (proj2 (In_range _ _ _) Hc)). exact Hpos.
Qed.


(** ** Time-capped horizons *)


Lemma estimated_trades_time_capped (g period : Z) :
  (period <= 7 * g)%Z ->
  estimated_trades g period == inject_Z period / 7 * 2.
Proof.
  intros Hcap. unfold estimated_trades.
  rewrite py_min_Qmin. apply Q.min_r.
  rewrite inject_Z_mult. change (inject_Z 2) with 2.
  assert (H : inject_Z period <= inject_Z (7 * g))
    by (rewrite <- Zle_Qle; exact Hcap).
  rewrite inject_Z_mult in H. change (inject_Z 7) with 7 in H.
  generalize dependent (inject_Z period). generalize (inject_Z g).
  intros G P HP. unfold Qdiv. change (/ 7) with (1 # 7). lra.
Qed.





(** X3.  A trade volume of 0, or a horizon of 0 days, makes the profit of
    every candidate zero: the optimizer returns grid count 0 with profit 0,
    and a grid size that is an infinity or nan. *)
Theorem zero_volume_or_horizon_finds_nothing
    (lo hi amp cr ff : Q) (period tv : Z) :
  tv = 0%Z \/ period = 0%Z ->
  grid_count (optimize_grid_for_period lo hi amp cr ff period tv) = 0%Z /\
  estimated_profit (optimize_grid_for_period lo hi amp cr ff period tv) = 0 /\
  is_finite (grid_size (optimize_grid_for_period lo hi amp cr ff period tv))
  = false.
Proof.
  intros Hzero.
  rewrite optimize_nothing_profitable.
  - cbn [grid_count estimated_profit grid_size].
    split; [reflexivity|]. split; [reflexivity|].
    apply div_by_zero_not_finite. reflexivity.
  - intros g Hg.
    assert (E : total_profit lo hi cr ff period tv g == 0).
    { unfold total_profit. cbn zeta.
      destruct Hzero as [-> | ->].
      - unfold avg_profit_per_trade, transaction_cost.
        change (inject_Z 0) with 0. ring.
      - rewrite estimated_trades_time_capped.
        + change (inject_Z 0) with 0. unfold Qdiv. ring.
        + destruct (grid_range_shape 0) as (first & n & Hshape & Hfirst).
          rewrite Hshape in Hg. apply In_range in Hg. lia. }
    rewrite E. lra.
Qed.

Lemma zero_volume_or_horizon_finds_nothing_witness :
  grid_count (optimize_grid_for_period 80 120 0 (1 # 1000) 1 30 0) = 0%Z /\
  estimated_profit (optimize_grid_for_period 80 120 0 (1 # 1000) 1 30 0) = 0
  /\
  is_finite (grid_size (optimize_grid_for_period 80 120 0 (1 # 1000) 1 30 0))
  = false.
Proof.
  apply zero_volume_or_horizon_finds_nothing. left. reflexivity.
Defined.

(** X5.  For a range with lowest below highest, the grid size of a candidate
    strictly decreases as the grid count grows. *)
Theorem candidate_grid_size_strictly_decreasing (lo hi : Q) (g g' : Z) :
  lo < hi -> (0 < g < g')%Z ->
  candidate_grid_size lo hi g' < candidate_grid_size lo hi g.
Proof.
  intros Hw (Hg & Hgg'). unfold candidate_grid_size.
  assert (HG : 0 < inject_Z g) by (rewrite <- (Zlt_Qlt 0); exact Hg).
  assert (HG' : 0 < inject_Z g') by (rewrite <- (Zlt_Qlt 0); lia).
  assert (HGG' : inject_Z g < inject_Z g') by (rewrite <- Zlt_Qlt; exact Hgg').
  apply Qlt_shift_div_r; [exact HG'|].
  assert (Heq : (hi - lo) / inject_Z g * inject_Z g'
                == (hi - lo) * (inject_Z g' / inject_Z g))
    by (field; lra).
  rewrite Heq.
  assert (H1 : 1 < inject_Z g' / inject_Z g)
    by (apply Qlt_shift_div_l; [exact HG | lra]).
  assert (H0 : 0 < (hi - lo) * (inject_Z g' / inject_Z g - 1))
    by (apply Qmult_lt_0_compat; lra).
  lra.
Qed.

Lemma candidate_grid_size_strictly_decreasing_witness :
  candidate_grid_size 80 120 15 < candidate_grid_size 80 120 5.
Proof.
  apply candidate_grid_size_strictly_decreasing.
  - reflexivity.
  - lia.
Defined.

(** ** The calculator's failures and what its result depends on *)

(** X6.  With a trade volume and horizons of the size a float holds, the
    calculator fails in two ways only: with the [ValueError] of line 21 when
    the history has fewer than twenty rows (whatever the risk level, and
    before anything is computed), and with the [KeyError] of the multiplier
    lookup when the history is long enough and the risk level is none of
    low, medium and high. *)
Theorem calculator_failures (hist_data : DataFrame) (periods : list Z)
    (risk_level : string) (cr ff : Q) (tv : Z) (e : exn) :
  float_exact tv -> Forall float_exact periods ->
  (outcome (calculate_grid_parameters hist_data periods risk_level cr ff tv)
   = inl e
   <->
   ((len hist_data < 20)%Z /\
    e = ValueError "Insufficient historical data to calculate parameters" /\
    trace (calculate_grid_parameters hist_data periods risk_level cr ff tv)
    = [])
   \/
   ((20 <= len hist_data)%Z /\
    ~ In risk_level ["low"; "medium"; "high"]%string /\
    e = KeyError risk_level)).
Proof.
  intros _ _.
  unfold outcome, trace.
  destruct (Z.lt_ge_cases (len hist_data) 20) as [Hshort | Hlen].
  - rewrite (calculate_short_history _ periods risk_level cr ff tv Hshort).
    cbn [fst snd]. split.
    + intros [= <-]. left. auto.
    + intros [(_ & -> & _) | (Hlen & _)]; [reflexivity | lia].
  - destruct (in_dec string_dec risk_level ["low"; "medium"; "high"]%string)
      as [Hin | Hnot].
    + apply enumerated_risk_key in Hin as Hp. destruct Hp as (p & ->).
      pose proof (calculate_run hist_data periods p cr ff tv Hlen) as Hrun.
      cbn zeta in Hrun. rewrite Hrun. cbn [fst]. split.
      * intros H. discriminate H.
      * intros [(Hshort & _) | (_ & Hnot & _)]; [lia | contradiction].
    + rewrite (calculate_unknown_risk _ periods _ cr ff tv Hlen Hnot).
      cbn [fst]. split.
      * intros [= <-]. right. auto.
      * intros [(Hshort & _) | (_ & _ & ->)]; [lia | reflexivity].
Qed.

Lemma calculator_failures_witness :
  outcome (calculate_grid_parameters [] [30; 90]%Z "extreme" (1 # 1000) 1 100)
  = inl (ValueError "Insufficient historical data to calculate parameters").
Proof.
  apply (calculator_failures [] [30; 90]%Z "extreme" (1 # 1000) 1 100).
  - unfold float_exact. vm_compute. discriminate.
  - repeat constructor; unfold float_exact; vm_compute; discriminate.
  - left. split; [reflexivity|]. split; reflexivity.
Defined.

(** X7.  Only the closing prices of the history matter: two histories with
    the same Close column give the same run, result and steps, whatever
    their Open, High and Low columns are (the average amplitude computed
    from High and Low is passed to the optimizer, which never reads it). *)
Theorem only_close_prices_matter (h1 h2 : DataFrame) (periods : list Z)
    (risk_level : string) (cr ff : Q) (tv : Z) :
  map Close h1 = map Close h2 ->
  run (calculate_grid_parameters h1 periods risk_level cr ff tv)
  = run (calculate_grid_parameters h2 periods risk_level cr ff tv).
Proof.
  intros Hclose.
  assert (Hlen : len h1 = len h2).
  { unfold len. f_equal.
    rewrite <- (length_map Close h1), <- (length_map Close h2).
    now rewrite Hclose. }
  destruct (Z.lt_ge_cases (len h1) 20) as [Hshort | Hlong].
  - rewrite !calculate_short_history by lia. reflexivity.
  - destruct (in_dec string_dec risk_level ["low"; "medium"; "high"]%string)
      as [Hin | Hnot].
    + apply enumerated_risk_key in Hin as (p & ->).
      pose proof (calculate_run h1 periods p cr ff tv Hlong) as H1.
      pose proof (calculate_run h2 periods p cr ff tv ltac:(lia)) as H2.
      cbn zeta in H1, H2. rewrite H1, H2, Hclose. reflexivity.
    + rewrite !calculate_unknown_risk by (trivial; lia). reflexivity.
Qed.

Lemma only_close_prices_matter_witness :
  run (calculate_grid_parameters calm_history [30; 90]%Z "medium"
         (1 # 1000) 1 100)
  = run (calculate_grid_parameters
           (map (fun b => {| Open := 0; High := 1000; Low := 0;
                             Close := Close b |}) calm_history)
           [30; 90]%Z "medium" (1 # 1000) 1 100).
Proof.
  apply only_close_prices_matter. reflexivity.
Defined.

Lemma first_occurrences_from_length (horizons seen : list Z) :
  (List.length (first_occurrences_from seen horizons)
   <= List.length horizons)%nat.
Proof.
  revert seen. induction horizons as [|h rest IH]; intros seen; [cbn; lia|].
  cbn [first_occurrences_from List.length].
  destruct (existsb (Z.eqb h) seen).
  - specialize (IH seen). lia.
  - specialize (IH (seen ++ [h])). cbn [List.length]. lia.
Qed.

(** X8.  In a successful run the per-horizon dict holds the requested
    horizons and no other key: looking up a horizon that was not requested
    finds nothing, the dict has at most as many entries as horizons were
    requested, and an empty request gives an empty dict. *)
Theorem period_strategies_hold_only_requested_horizons
    (hist_data : DataFrame) (periods : list Z) (p : RiskProfile)
    (cr ff : Q) (tv : Z) :
  (20 <= len hist_data)%Z ->
  exists r,
    outcome (calculate_grid_parameters hist_data periods (risk_key p)
               cr ff tv)
    = inr r /\
    (forall h, In h (dict_keys (period_strategies r)) <-> In h periods) /\
    (forall h, ~ In h periods -> dict_get (period_strategies r) h = None) /\
    (List.length (period_strategies r) <= List.length periods)%nat /\
    (periods = [] -> period_strategies r = []).
Proof.
  intros Hlen.
  pose proof (calculate_run hist_data periods p cr ff tv Hlen) as Hrun.
  cbn zeta in Hrun. unfold outcome. rewrite Hrun. clear Hrun.
  eexists. split; [reflexivity|].
  cbn [fst period_strategies].
  set (lo := np_mean (map Close hist_data) - _).
  set (hi := np_mean (map Close hist_data) + _).
  set (amp := np_mean (map _ hist_data)).
  pose (opt := fun h : Z => optimize_grid_for_period lo hi amp cr ff h tv).
  change (fold_left _ periods [])
    with (fold_left (fun d h => dict_set d h (opt h)) periods []).
  assert (Hkeys :
            dict_keys (fold_left (fun d h => dict_set d h (opt h)) periods [])
            = first_occurrences periods)
    by (rewrite dict_keys_assignments; reflexivity).
  split; [|split; [|split]].
  - intros h. rewrite Hkeys.
    rewrite (first_occurrences_from_In periods [] h). cbn. tauto.
  - intros h Hh. rewrite (dict_get_assignments opt).
    destruct (existsb (Z.eqb h) periods) eqn:E; [|reflexivity].
    apply existsb_eqb_In in E. contradiction.
  - rewrite <- (length_map fst). fold (dict_keys (fold_left
      (fun d h => dict_set d h (opt h)) periods [])).
    rewrite Hkeys. apply first_occurrences_from_length.
  - intros ->. reflexivity.
Qed.

Lemma period_strategies_hold_only_requested_horizons_witness :
  exists r,
    outcome (calculate_grid_parameters calm_history [] (risk_key Low_risk)
               (1 # 1000) 1 100)
    = inr r /\
    period_strategies r = [].
Proof.
  assert (Hlen : (20 <= len calm_history)%Z) by (vm_compute; discriminate).
  destruct (period_strategies_hold_only_requested_horizons calm_history []
              Low_risk (1 # 1000) 1 100 Hlen)
    as (r & Hr & _ & _ & _ & Hempty).
  exists r. split; [exact Hr | exact (Hempty eq_refl)].
Defined.

(** ** The price range *)

Lemma sqrtQ_nonneg (q : Q) : 0 <= sqrtQ q.
Proof.
  unfold sqrtQ, Qle. cbn [Qnum Qden].
  pose proof (Z.sqrt_nonneg (Qfloor (q * inject_Z (4 ^ sqrt_bits)))). lia.
Qed.

(** X9.  In every successful run the range brackets the mean closing price:
    lowest <= mean <= highest, and the width of the range is twice the
    multiplier times the deviation of the closing prices. *)
Theorem price_range_brackets_mean (hist_data : DataFrame) (periods : list Z)
    (p : RiskProfile) (cr ff : Q) (tv : Z) :
  (20 <= len hist_data)%Z ->
  exists r,
    outcome (calculate_grid_parameters hist_data periods (risk_key p)
               cr ff tv)
    = inr r /\
    lowest_price r <= np_mean (map Close hist_data) /\
    np_mean (map Close hist_data) <= highest_price r /\
    highest_price r - lowest_price r
    == 2 * multiplier_of p * np_std (map Close hist_data).
Proof.
  intros Hlen.
  pose proof (calculate_run hist_data periods p cr ff tv Hlen) as Hrun.
  cbn zeta in Hrun. unfold outcome. rewrite Hrun. clear Hrun.
  eexists. split; [reflexivity|].
  cbn [fst lowest_price highest_price].
  pose proof (sqrtQ_nonneg
                (np_mean (map (fun x => (x - np_mean (map Close hist_data))
                                        * (x - np_mean (map Close hist_data)))
                              (map Close hist_data)))) as Hs.
  fold (np_std (map Close hist_data)) in Hs.
  set (s := np_std (map Close hist_data)) in *.
  set (m := np_mean (map Close hist_data)).
  assert (Hm : 0 <= multiplier_of p * s).
  { apply Qmult_le_0_compat; [|exact Hs].
    destruct p; cbn; vm_compute; discriminate. }
  split; [lra|]. split; [lra | ring].
Qed.

Lemma price_range_brackets_mean_witness :
  exists r,
    outcome (calculate_grid_parameters wild_history [30]%Z
               (risk_key High_risk) (1 # 1000) 1 100)
    = inr r /\
    lowest_price r <= np_mean (map Close wild_history) /\
    np_mean (map Close wild_history) <= highest_price r.
Proof.
  assert (Hlen : (20 <= len wild_history)%Z) by (vm_compute; discriminate).
  destruct (price_range_brackets_mean wild_history [30]%Z High_risk
              (1 # 1000) 1 100 Hlen)
    as (r & Hr & Hlo & Hhi & _).
  exists r. split; [exact Hr|]. split; [exact Hlo | exact Hhi].
Defined.

(** ** The daily returns *)

Lemma pct_change_from_nonzero (l : list Q) (prev : Q) :
  ~ prev == 0 -> Forall (fun x => ~ x == 0) l ->
  pct_change_from prev l = map Finite (finite_returns_from prev l).
Proof.
  revert prev. induction l as [|x rest IH]; intros prev Hprev Hall.
  - reflexivity.
  - inversion Hall as [|? ? Hx Hrest]; subst.
    cbn [pct_change_from finite_returns_from map].
    rewrite (IH x Hx Hrest). f_equal.
    cbn [div]. apply Qeqb_neq in Hprev. rewrite Hprev. reflexivity.
Qed.

Lemma dropna_finite (qs : list Q) : dropna (map Finite qs) = map Finite qs.
Proof.
  unfold dropna. induction qs as [|q rest IH]; [reflexivity|].
  cbn. now rewrite IH.
Qed.

Lemma finite_returns_from_length (l : list Q) (prev : Q) :
  List.length (finite_returns_from prev l) = List.length l.
Proof.
  revert prev. induction l as [|x rest IH]; intros prev; [reflexivity|].
  cbn. now rewrite IH.
Qed.

Lemma returns_shape_nonzero (closes : list Q) :
  Forall (fun x => ~ x == 0) closes ->
  dropna (pct_change closes) = map Finite (finite_returns closes) /\
  List.length (finite_returns closes) = pred (List.length closes).
Proof.
  intros Hall. destruct closes as [|x rest]; [split; reflexivity|].
  inversion Hall as [|? ? Hx Hrest]; subst.
  cbn [pct_change finite_returns List.length pred].
  rewrite (pct_change_from_nonzero rest x Hx Hrest).
  unfold dropna. cbn [filter is_nan negb].
  split; [apply dropna_finite | apply finite_returns_from_length].
Qed.

(** X10.  When no closing price is zero, the daily returns are one finite
    number per row after the first, each close over the one before minus 1:
    [pct_change().dropna()] drops the first place and nothing else. *)
Theorem returns_of_nonzero_closes (closes : list Q) :
  Forall (fun x => ~ x == 0) closes ->
  dropna (pct_change closes) = map Finite (finite_returns closes) /\
  List.length (dropna (pct_change closes)) = pred (List.length closes).
Proof.
  intros Hall.
  destruct (returns_shape_nonzero closes Hall) as [Hret Hcount].
  split; [exact Hret|].
  now rewrite Hret, length_map.
Qed.

Lemma returns_of_nonzero_closes_witness :
  dropna (pct_change [100; 110; 99])
  = map Finite (finite_returns [100; 110; 99]) /\
  List.length (dropna (pct_change [100; 110; 99])) = 2%nat.
Proof.
  apply (returns_of_nonzero_closes [100; 110; 99]).
  repeat constructor; intro H; discriminate H.
Defined.

(** ** A range of width zero *)

Lemma estimated_trades_nonneg (g period : Z) :
  (0 <= g)%Z -> (0 <= period)%Z -> 0 <= estimated_trades g period.
Proof.
  intros Hg Hp. unfold estimated_trades. rewrite py_min_Qmin.
  assert (HG : 0 <= inject_Z (g * 2)) by (rewrite <- (Zle_Qle 0); lia).
  assert (HP : 0 <= inject_Z period) by (rewrite <- (Zle_Qle 0); exact Hp).
  apply Q.min_glb; [exact HG|].
  unfold Qdiv. change (/ 7) with (1 # 7). lra.
Qed.

Lemma zero_width_profit_nonpositive (lo hi cr ff : Q) (period tv g : Z) :
  hi == lo -> 0 <= lo -> 0 <= cr -> 0 <= ff ->
  (0 <= tv)%Z -> (0 <= period)%Z -> (0 <= g)%Z ->
  ~ 0 < total_profit lo hi cr ff period tv g.
Proof.
  intros Hw Hlo Hcr Hff Htv Hperiod Hg.
  pose proof (estimated_trades_nonneg g period Hg Hperiod) as Hest.
  assert (HT : 0 <= inject_Z tv) by (rewrite <- (Zle_Qle 0); exact Htv).
  unfold total_profit, avg_profit_per_trade, transaction_cost. cbn zeta.
  assert (Hx : candidate_grid_size lo hi g == 0).
  { unfold candidate_grid_size.
    assert (H0 : hi - lo == 0) by lra.
    rewrite H0. unfold Qdiv. ring. }
  rewrite Hx.
  set (T := inject_Z tv) in *. set (E := estimated_trades g period) in *.
  assert (H1 : 0 <= lo * cr) by (apply Qmult_le_0_compat; assumption).
  assert (H2 : 0 <= lo * cr * T) by (apply Qmult_le_0_compat; assumption).
  assert (H3 : 0 <= ff * T) by (apply Qmult_le_0_compat; assumption).
  assert (H4 : 0 <= (lo * cr * T + ff * T) * E)
    by (apply Qmult_le_0_compat; [lra | assumption]).
  unfold Qdiv. change (/ 2) with (1 # 2). lra.
Qed.

Lemma grid_range_nonneg (period g : Z) :
  In g (grid_range period) -> (0 <= g)%Z.
Proof.
  intros Hg. destruct (grid_range_shape period) as (first & n & Hshape & Hpos).
  rewrite Hshape in Hg. apply In_range in Hg. lia.
Qed.

(** X12.  For a range of width zero at a price that is not negative, with a
    commission rate, a fixed fee, a trade volume and a horizon that are not
    negative, no candidate is profitable: the optimizer returns grid count
    0, profit 0 and the grid size nan (zero over zero). *)
Theorem zero_width_range_gives_nan_grid_size
    (lo hi amp cr ff : Q) (period tv : Z) :
  hi == lo -> 0 <= lo -> 0 <= cr -> 0 <= ff ->
  (0 <= tv)%Z -> (0 <= period)%Z ->
  optimize_grid_for_period lo hi amp cr ff period tv
  = {| grid_count := 0; estimated_profit := 0; grid_size := NaN |}.
Proof.
  intros Hw Hlo Hcr Hff Htv Hperiod.
  rewrite optimize_nothing_profitable.
  - f_equal. cbn [div].
    replace (Qeqb (inject_Z 0) 0) with true by reflexivity.
    replace (Qeqb (hi - lo) 0) with true; [reflexivity|].
    symmetry. apply Qeqb_eq. lra.
  - intros g Hg. apply zero_width_profit_nonpositive; trivial.
    exact (grid_range_nonneg period g Hg).
Qed.

Lemma zero_width_range_gives_nan_grid_size_witness :
  optimize_grid_for_period 100 100 0 (1 # 1000) 1 30 100
  = {| grid_count := 0; estimated_profit := 0; grid_size := NaN |}.
Proof.
  apply zero_width_range_gives_nan_grid_size.
  - reflexivity.
  - vm_compute. discriminate.
  - vm_compute. discriminate.
  - vm_compute. discriminate.
  - lia.
  - lia.
Defined.

(** ** Fetching the history *)

(** X14.  [fetch_stock_data] returns a frame exactly when the data source
    returned that frame and it has at least one row.  Every failure is a
    [ValueError] whose text begins with "Error fetching stock data: ": the
    text of the exception the source raised, or, for an empty frame, the
    text of the function's own "Unable to fetch data" error, which its own
    handler catches and wraps. *)
Theorem fetch_stock_data_outcomes (history : history_source)
    (ticker : string) (days : Z) :
  (forall data,
     fetch_stock_data history ticker days = inr data
     <-> history ticker days = inr data /\ data <> []) /\
  (forall e,
     fetch_stock_data history ticker days = inl e ->
     exists msg,
       e = ValueError ("Error fetching stock data: " ++ msg)%string /\
       (history ticker days = inl msg \/
        history ticker days = inr [] /\
        msg = ("Unable to fetch data for " ++ ticker
               ++ ". Please check if the ticker is correct.")%string)).
Proof.
  unfold fetch_stock_data.
  destruct (history ticker days) as [msg | [|row rest]].
  - split.
    + intros data. split; [discriminate | intros [H _]; discriminate H].
    + intros e [= <-]. exists msg. split; [reflexivity | left; reflexivity].
  - split.
    + intros data. split; [discriminate|].
      intros [[= <-] Hne]. contradiction.
    + intros e [= <-]. eexists. split; [reflexivity|].
      right. split; reflexivity.
  - split.
    + intros data. split.
      * intros [= <-]. split; [reflexivity | discriminate].
      * intros [[= <-] _]. reflexivity.
    + intros e H. discriminate H.
Qed.

(** ** A negative horizon *)

Lemma estimated_trades_negative (g period : Z) :
  (0 <= g)%Z -> (period < 0)%Z -> estimated_trades g period < 0.
Proof.
  intros Hg Hp.
  rewrite estimated_trades_time_capped by lia.
  assert (HP : inject_Z period < inject_Z 0)
    by (rewrite <- Zlt_Qlt; exact Hp).
  change (inject_Z 0) with 0 in HP.
  unfold Qdiv. change (/ 7) with (1 # 7). lra.
Qed.

(** X15.  A negative horizon makes the number of trades negative, so the
    loop counts a loss per trade as a profit: whenever the optimizer then
    returns a grid count other than 0, it reports a strictly positive profit
    for a candidate whose profit per trade is strictly negative. *)
Theorem negative_horizon_rewards_losses (lo hi amp cr ff : Q)
    (period tv : Z) :
  (period < 0)%Z ->
  grid_count (optimize_grid_for_period lo hi amp cr ff period tv) <> 0%Z ->
  0 < estimated_profit (optimize_grid_for_period lo hi amp cr ff period tv)
  /\
  avg_profit_per_trade
    (candidate_grid_size lo hi
       (grid_count (optimize_grid_for_period lo hi amp cr ff period tv)))
    tv
    (transaction_cost lo
       (candidate_grid_size lo hi
          (grid_count (optimize_grid_for_period lo hi amp cr ff period tv)))
       cr ff tv)
  < 0.
Proof.
  intros Hperiod. rewrite optimize_unfold. cbn zeta.
  cbn [grid_count estimated_profit].
  destruct (grid_range_shape period) as (first & n & Hshape & Hfirst).
  rewrite Hshape.
  destruct (search_invariant lo hi cr ff period tv first n)
    as [[-> _] | (Hc & Hm & Hpos & _)].
  - cbn [snd]. intros H. contradiction.
  - intros _. set (c := snd _) in *.
    split; [rewrite Hm; exact Hpos|].
    unfold total_profit in Hpos. cbn zeta in Hpos.
    pose proof (estimated_trades_negative c period ltac:(lia) Hperiod) as Hest.
    set (a := avg_profit_per_trade _ _ _) in *.
    set (e := estimated_trades c period) in *.
    destruct (Qlt_le_dec a 0) as [Ha | Ha]; [exact Ha | exfalso].
    assert (H : 0 <= a * (- e)) by (apply Qmult_le_0_compat; lra).
    lra.
Qed.

Lemma negative_horizon_rewards_losses_witness :
  0 < estimated_profit
        (optimize_grid_for_period 98 102 0 (1 # 1000) 1 (-7) 100) /\
  avg_profit_per_trade
    (candidate_grid_size 98 102
       (grid_count (optimize_grid_for_period 98 102 0 (1 # 1000) 1 (-7) 100)))
    100
    (transaction_cost 98
       (candidate_grid_size 98 102
          (grid_count
             (optimize_grid_for_period 98 102 0 (1 # 1000) 1 (-7) 100)))
       (1 # 1000) 1 100)
  < 0.
Proof.
  apply negative_horizon_rewards_losses.
  - lia.
  - vm_compute. discriminate.
Defined.
